(** * pgtype: the interning enum codec and the JSON surface of nullable text

    A shallow embedding of [pgtype/enum_codec.go].  Methods with a pointer
    receiver [c *EnumCodec] are state transformers on the codec they point
    to; a destination handed over as [interface{}] holding a pointer is
    passed in with its pointee and handed back after the call. *)

From Stdlib Require Import ZArith NArith String Ascii List Bool Lia.
From Stdlib.Strings Require Import Byte.
From stdpp Require Import base option gmap strings.

Import ListNotations.
Local Open Scope string_scope.
Local Open Scope Z_scope.

(** ** Go values *)

(** A Go string is an immutable byte sequence behind a header made of a data
    pointer and a length.  [sval] is the byte content, one [ascii] per byte;
    [sdata] stands for the data pointer and is what "the same instance"
    means.  Go's [==] on strings, and map lookup, look at [sval] only.  The
    zero value of the type has a nil data pointer. *)
Record gostring : Type := GoString { sdata : N; sval : string }.

Definition zero_string : gostring := GoString 0 "".

(** [[]byte]: [None] is the nil slice, [Some []] a present slice of length 0. *)
Definition bytes : Type := option (list byte).

(** The conversion [string(src)]; a nil slice converts to the empty string. *)
Definition string_of_bytes (src : bytes) : string :=
  string_of_list_byte (default [] src).

(** [error]: [None] is nil, [Some msg] an error whose text is [msg]. *)
Definition error : Type := option string.

(** [pgtype.Text], the nullable text value: [Text{}] is SQL NULL. *)
Record Text : Type := mkText { Text_String : gostring; Text_Valid : bool }.

Definition zero_Text : Text := mkText zero_string false.

(** The two capability interfaces, each with one method ([TextValue],
    [ScanText]), as that method over the dynamic type that implements it.
    [ScanText] usually has a pointer receiver, so it hands back the
    receiver's new state next to the error. *)
Definition TextValuer (T : Type) : Type := T -> Text * error.
Definition TextScanner (T : Type) : Type := T -> Text -> T * error.

(** A value of any dynamic type other than the built-in shapes the type
    switches name: its state, the name [%T] prints for it, and the method
    sets it has (a runtime capability test is a test for [Some]). *)
Record UserValue : Type := mkUser {
  u_carrier : Type;
  u_typeName : string;
  u_self : u_carrier;
  u_valuer : option (TextValuer u_carrier);
  u_scanner : option (TextScanner u_carrier)
}.

Definition u_store (u : UserValue) (self' : u_carrier u) : UserValue :=
  mkUser (u_carrier u) (u_typeName u) self' (u_valuer u) (u_scanner u).

(** What an [interface{}] argument can hold.  A pointer carries its pointee,
    [None] being the nil pointer. *)
Inductive any : Type :=
| AnyNil
| AnyString (s : gostring)
| AnyBytes (b : bytes)
| AnyRune (r : Z)
| AnyStringPtr (p : option gostring)
| AnyBytesPtr (p : option bytes)
| AnyRunePtr (p : option Z)
| AnyUser (u : UserValue).

(** The text [fmt]'s [%T] verb prints for a value. *)
Definition type_name (v : any) : string :=
  match v with
  | AnyNil => "<nil>"
  | AnyString _ => "string"
  | AnyBytes _ => "[]uint8"
  | AnyRune _ => "int32"
  | AnyStringPtr _ => "*string"
  | AnyBytesPtr _ => "*[]uint8"
  | AnyRunePtr _ => "*int32"
  | AnyUser u => u_typeName u
  end.

(** A call either returns or panics. *)
Inductive panic : Type := TypeAssertion | NilDereference.
Inductive outcome (A : Type) : Type :=
| Returns (a : A)
| Panics (p : panic).
Arguments Returns {A} a.
Arguments Panics {A} p.

(** Modelled from the spec: the format codes, [0 = Text] and [1 = Binary];
    the constants are declared outside [enum_codec.go]. *)
Definition TextFormatCode : Z := 0.
Definition BinaryFormatCode : Z := 1.

(** ** EnumCodec *)

(** [membersMap map[string]string]: keys are compared by content, values are
    string instances; [None] is the nil map of a zero [EnumCodec]. *)
Record EnumCodec : Type := mkEnumCodec {
  membersMap : option (gmap string gostring)
}.

Definition zero_EnumCodec : EnumCodec := mkEnumCodec None.

Inductive EncodePlan : Type :=
| encodePlanTextCodecString
| encodePlanTextCodecByteSlice
| encodePlanTextCodecRune
| encodePlanTextCodecTextValuer.

(** The two enum plans hold [codec: c], the receiver [PlanScan] was called
    on; their [Scan] below takes that codec's state and returns it. *)
Inductive ScanPlan : Type :=
| scanPlanTextAnyToEnumString
| scanPlanAnyToNewByteSlice
| scanPlanTextAnyToEnumTextScanner
| scanPlanTextAnyToRune.

Section Codec.

(** [*ConnInfo] is passed through every method and never inspected. *)
Variable ConnInfo : Type.

Definition FormatSupported (format : Z) : bool :=
  (format =? TextFormatCode) || (format =? BinaryFormatCode).

Definition PreferredFormat : Z := TextFormatCode.

Definition PlanEncode (ci : option ConnInfo) (oid : Z) (format : Z)
    (value : any) : option EncodePlan :=
  if (format =? TextFormatCode) || (format =? BinaryFormatCode) then
    match value with
    | AnyString _ => Some encodePlanTextCodecString
    | AnyBytes _ => Some encodePlanTextCodecByteSlice
    | AnyRune _ => Some encodePlanTextCodecRune
    | AnyUser u =>
        match u_valuer u with
        | Some _ => Some encodePlanTextCodecTextValuer
        | None => None
        end
    | _ => None
    end
  else None.

Definition PlanScan (c : EnumCodec) (ci : option ConnInfo) (oid : Z)
    (format : Z) (target : any) (actualTarget : bool) : option ScanPlan :=
  if (format =? TextFormatCode) || (format =? BinaryFormatCode) then
    match target with
    | AnyStringPtr _ => Some scanPlanTextAnyToEnumString
    | AnyBytesPtr _ => Some scanPlanAnyToNewByteSlice
    | AnyRunePtr _ => Some scanPlanTextAnyToRune
    | AnyUser u =>
        match u_scanner u with
        | Some _ => Some scanPlanTextAnyToEnumTextScanner
        | None => None
        end
    | _ => None
    end
  else None.

(** [s, found := c.membersMap[string(src)]]: when the key is absent [s] is
    the zero string, and it is that [s] the [else] branch stores and
    returns. *)
Definition lookupAndCacheString (c : EnumCodec) (src : bytes)
    : EnumCodec * gostring :=
  let m := default ∅ (membersMap c) in
  match m !! string_of_bytes src with
  | Some s => (mkEnumCodec (Some m), s)
  | None =>
      let s := zero_string in
      (mkEnumCodec (Some (<[sval s := s]> m)), s)
  end.

Definition DecodeValue (c : EnumCodec) (ci : option ConnInfo) (oid : Z)
    (format : Z) (src : bytes) : EnumCodec * (any * error) :=
  match src with
  | None => (c, (AnyNil, None))
  | Some _ =>
      let '(c', s) := lookupAndCacheString c src in
      (c', (AnyString s, None))
  end.

Definition DecodeDatabaseSQLValue (c : EnumCodec) (ci : option ConnInfo)
    (oid : Z) (format : Z) (src : bytes) : EnumCodec * (any * error) :=
  DecodeValue c ci oid format src.

(** [fmt.Errorf("cannot scan null into %T", dst)] *)
Definition cannot_scan_null (dst : any) : error :=
  Some ("cannot scan null into " +:+ type_name dst).

(** Returns the codec, the destination and what the call did.  The store
    through [p] happens after the call on the right-hand side has run. *)
Definition scanPlanTextAnyToEnumString_Scan (codec : EnumCodec)
    (ci : option ConnInfo) (oid : Z) (formatCode : Z) (src : bytes)
    (dst : any) : EnumCodec * any * outcome error :=
  match src with
  | None => (codec, dst, Returns (cannot_scan_null dst))
  | Some _ =>
      match dst with
      | AnyStringPtr p =>
          let '(codec', s) := lookupAndCacheString codec src in
          match p with
          | Some _ => (codec', AnyStringPtr (Some s), Returns None)
          | None => (codec', dst, Panics NilDereference)
          end
      | _ => (codec, dst, Panics TypeAssertion)
      end
  end.

Definition scanPlanTextAnyToEnumTextScanner_Scan (codec : EnumCodec)
    (ci : option ConnInfo) (oid : Z) (formatCode : Z) (src : bytes)
    (dst : any) : EnumCodec * any * outcome error :=
  match dst with
  | AnyUser u =>
      match u_scanner u with
      | Some scanner =>
          match src with
          | None =>
              let '(self', err) := scanner (u_self u) zero_Text in
              (codec, AnyUser (u_store u self'), Returns err)
          | Some _ =>
              let '(codec', s) := lookupAndCacheString codec src in
              let '(self', err) := scanner (u_self u) (mkText s true) in
              (codec', AnyUser (u_store u self'), Returns err)
          end
      | None => (codec, dst, Panics TypeAssertion)
      end
  | _ => (codec, dst, Panics TypeAssertion)
  end.

End Codec.

Arguments PlanEncode {ConnInfo} ci oid format value.
Arguments PlanScan {ConnInfo} c ci oid format target actualTarget.
Arguments DecodeValue {ConnInfo} c ci oid format src.
Arguments DecodeDatabaseSQLValue {ConnInfo} c ci oid format src.
Arguments scanPlanTextAnyToEnumString_Scan {ConnInfo} codec ci oid formatCode src dst.
Arguments scanPlanTextAnyToEnumTextScanner_Scan {ConnInfo} codec ci oid formatCode src dst.

(** Modelled from the spec: the encode plan for a plain string, "encode
    verbatim as UTF-8-equivalent bytes", whose result "distinguishes NULL (no
    buffer) from an explicit empty buffer"; [encodePlanTextCodecString.Encode]
    is declared outside [enum_codec.go]. *)
Definition encodePlanTextCodecString_Encode (value : any)
    : outcome (bytes * error) :=
  match value with
  | AnyString s => Returns (Some (list_byte_of_string (sval s)), None)
  | _ => Panics TypeAssertion
  end.

(** A run of [DecodeValue] calls on one codec, the way a caller reading a
    column makes them row after row: the codec the last call leaves. *)
Fixpoint decode_all {ConnInfo : Type} (c : EnumCodec) (ci : option ConnInfo)
    (oid : Z) (format : Z) (srcs : list bytes) : EnumCodec :=
  match srcs with
  | [] => c
  | src :: rest => decode_all (DecodeValue c ci oid format src).1 ci oid format rest
  end.

(** ** Properties of a cache *)

Definition cache (c : EnumCodec) : gmap string gostring :=
  default ∅ (membersMap c).

(** Every entry is filed under its own content. *)
Definition cache_wf (c : EnumCodec) : Prop :=
  ∀ k v, cache c !! k = Some v → sval v = k.

(** The codecs a program can arrive at: [membersMap] is not exported, so a
    codec starts as the zero value and changes through
    [lookupAndCacheString] only. *)
Inductive reachable : EnumCodec → Prop :=
| reachable_zero : reachable zero_EnumCodec
| reachable_lookup c src :
    reachable c → reachable (lookupAndCacheString c src).1.

(** ** Shapes outside the dispatch *)

(** A value that is none of the shapes [PlanEncode] names: not a string, not
    a byte slice, not a rune, and without the [TextValuer] method. *)
Definition unsupported_value (v : any) : Prop :=
  (∀ s, v ≠ AnyString s) ∧ (∀ b, v ≠ AnyBytes b) ∧ (∀ r, v ≠ AnyRune r) ∧
  (∀ u, v = AnyUser u → u_valuer u = None).

(** A destination that is none of the shapes [PlanScan] names. *)
Definition unsupported_target (t : any) : Prop :=
  (∀ p, t ≠ AnyStringPtr p) ∧ (∀ p, t ≠ AnyBytesPtr p) ∧
  (∀ p, t ≠ AnyRunePtr p) ∧ (∀ u, t = AnyUser u → u_scanner u = None).

Definition unsupported_format (format : Z) : Prop :=
  format ≠ TextFormatCode ∧ format ≠ BinaryFormatCode.

(** ** Inputs used below *)

(** A destination in the style of a user-defined enum type whose [ScanText]
    refuses NULL. *)
Definition Color_ScanText : TextScanner (option string) :=
  fun self v =>
    if Text_Valid v then (Some (sval (Text_String v)), None)
    else (self, Some "cannot scan NULL into *Color").

Definition strictColor : UserValue :=
  mkUser (option string) "*Color" None None (Some Color_ScanText).

(** A codec that holds one entry under a non-empty key, as code inside the
    package can build it. *)
Definition redCodec : EnumCodec :=
  mkEnumCodec (Some {["red" := GoString 7 "red"]}).

(** A destination that keeps whatever it is handed, the way [*pgtype.Text]
    does. *)
Definition Keep_ScanText : TextScanner Text :=
  fun _ v => (v, None).

Definition keepText (t : Text) : UserValue :=
  mkUser Text "*pgtype.Text" t None (Some Keep_ScanText).

(** ** JSON surface of the nullable text value *)

Module Json.

(** Modelled from the spec: the nullable text value as the JSON surface sees
    it, [{ content, present }]; [Text.MarshalJSON] and [Text.UnmarshalJSON]
    are declared outside the sources, which hold their tests only. *)
Record NullableText : Type := mkNullableText {
  content : string;
  present : bool
}.

Inductive decoding_error : Type :=
| UnexpectedEnd
| MalformedString
| TrailingInput
| WrongShape.

Definition dquote : ascii := "034"%char.
Definition backslash : ascii := "092"%char.

Definition hex_digit (n : N) : ascii :=
  if (n <? 10)%N then ascii_of_N (48 + n) else ascii_of_N (87 + n).

Definition hex_value (a : ascii) : option N :=
  let n := N_of_ascii a in
  if ((48 <=? n) && (n <=? 57))%N then Some (n - 48)%N
  else if ((97 <=? n) && (n <=? 102))%N then Some (n - 87)%N
  else if ((65 <=? n) && (n <=? 70))%N then Some (n - 55)%N
  else None.

(** Modelled from the spec: "a properly escaped JSON string": the quote, the
    backslash and the control characters are escaped, every other byte is
    kept. *)
Definition escape_char (a : ascii) : string :=
  let n := N_of_ascii a in
  if (n =? 34)%N then String backslash (String dquote "")
  else if (n =? 92)%N then String backslash (String backslash "")
  else if (n =? 8)%N then String backslash "b"
  else if (n =? 9)%N then String backslash "t"
  else if (n =? 10)%N then String backslash "n"
  else if (n =? 12)%N then String backslash "f"
  else if (n =? 13)%N then String backslash "r"
  else if (n <? 32)%N then
    String backslash
      (String "u" (String "0" (String "0"
        (String (hex_digit (n / 16)) (String (hex_digit (n mod 16)) "")))))
  else String a "".

Fixpoint escape (s : string) : string :=
  match s with
  | EmptyString => ""
  | String a rest => escape_char a +:+ escape rest
  end.

(** Modelled from the spec: [to_json]; absent gives the null literal,
    present the quoted, escaped content. *)
Definition to_json (t : NullableText) : string :=
  if present t then String dquote (escape (content t) +:+ String dquote "")
  else "null".

(** What a string literal is made of: a byte written as it is, or the 16-bit
    unit a [\uXXXX] escape names. *)
Inductive piece : Type :=
| Raw (a : ascii)
| Unit16 (u : N).

Definition simple_escape (e : ascii) : option ascii :=
  let n := N_of_ascii e in
  if (n =? 34)%N then Some dquote
  else if (n =? 92)%N then Some backslash
  else if (n =? 47)%N then Some "/"%char
  else if (n =? 98)%N then Some "008"%char
  else if (n =? 102)%N then Some "012"%char
  else if (n =? 110)%N then Some "010"%char
  else if (n =? 114)%N then Some "013"%char
  else if (n =? 116)%N then Some "009"%char
  else None.

Definition hex4 (h1 h2 h3 h4 : ascii) : option N :=
  match hex_value h1, hex_value h2, hex_value h3, hex_value h4 with
  | Some a, Some b, Some c, Some d => Some (((a * 16 + b) * 16 + c) * 16 + d)%N
  | _, _, _, _ => None
  end.

Definition push (p : piece) (r : option (list piece * string))
    : option (list piece * string) :=
  match r with
  | Some (ps, tail) => Some (p :: ps, tail)
  | None => None
  end.

(** Modelled from the spec: reading "a JSON string".  Takes the literal
    after its opening quote, up to and including the closing one; hands back
    the pieces and what follows. *)
Fixpoint string_body (s : string) : option (list piece * string) :=
  match s with
  | EmptyString => None
  | String a rest =>
      if Ascii.eqb a dquote then Some ([], rest)
      else if Ascii.eqb a backslash then
        match rest with
        | EmptyString => None
        | String e rest1 =>
            if Ascii.eqb e "u"%char then
              match rest1 with
              | String h1 (String h2 (String h3 (String h4 rest2))) =>
                  match hex4 h1 h2 h3 h4 with
                  | Some u => push (Unit16 u) (string_body rest2)
                  | None => None
                  end
              | _ => None
              end
            else
              match simple_escape e with
              | Some c => push (Raw c) (string_body rest1)
              | None => None
              end
        end
      else if (N_of_ascii a <? 32)%N then None
      else push (Raw a) (string_body rest)
  end.

Definition string_of_Ns (l : list N) : string :=
  string_of_list_ascii (map ascii_of_N l).

(** UTF-8 of a code point. *)
Definition utf8 (cp : N) : string :=
  (if cp <? 128 then string_of_Ns [cp]
   else if cp <? 2048 then string_of_Ns [192 + cp / 64; 128 + cp mod 64]
   else if cp <? 65536 then
     string_of_Ns [224 + cp / 4096; 128 + (cp / 64) mod 64; 128 + cp mod 64]
   else
     string_of_Ns [240 + cp / 262144; 128 + (cp / 4096) mod 64;
                   128 + (cp / 64) mod 64; 128 + cp mod 64])%N.

Definition high_surrogate (u : N) : bool := ((55296 <=? u) && (u <? 56320))%N.
Definition low_surrogate (u : N) : bool := ((56320 <=? u) && (u <? 57344))%N.
Definition replacement : N := 65533%N.

(** Modelled from the spec: the "decoded" content of a string literal.  A
    surrogate pair is one code point, a surrogate on its own decodes to the
    replacement character. *)
Fixpoint decode_pieces (ps : list piece) : string :=
  match ps with
  | [] => ""
  | Raw a :: ps1 => String a (decode_pieces ps1)
  | Unit16 u :: ps1 =>
      if high_surrogate u then
        match ps1 with
        | Unit16 v :: ps2 =>
            if low_surrogate v then
              utf8 (65536 + (u - 55296) * 1024 + (v - 56320))%N
                +:+ decode_pieces ps2
            else utf8 replacement +:+ decode_pieces ps1
        | _ => utf8 replacement +:+ decode_pieces ps1
        end
      else if low_surrogate u then utf8 replacement +:+ decode_pieces ps1
      else utf8 u +:+ decode_pieces ps1
  end.

Definition is_ws (a : ascii) : bool :=
  let n := N_of_ascii a in
  ((n =? 32) || (n =? 9) || (n =? 10) || (n =? 13))%N.

Fixpoint skip_ws (s : string) : string :=
  match s with
  | String a rest => if is_ws a then skip_ws rest else s
  | EmptyString => ""
  end.

Definition all_ws (s : string) : bool :=
  match skip_ws s with EmptyString => true | _ => false end.

Fixpoint strip_prefix (p s : string) : option string :=
  match p, s with
  | EmptyString, _ => Some s
  | String a p1, String b s1 =>
      if Ascii.eqb a b then strip_prefix p1 s1 else None
  | String _ _, EmptyString => None
  end.

(** Modelled from the spec: [from_json]; the null literal gives the absent
    value with empty content, a string literal the present value with the
    decoded content, anything else a decoding error. *)
Definition from_json (txt : string) : NullableText + decoding_error :=
  match skip_ws txt with
  | EmptyString => inr UnexpectedEnd
  | String a rest =>
      if Ascii.eqb a dquote then
        match string_body rest with
        | Some (ps, tail) =>
            if all_ws tail then inl (mkNullableText (decode_pieces ps) true)
            else inr TrailingInput
        | None => inr MalformedString
        end
      else
        match strip_prefix "null" (String a rest) with
        | Some tail =>
            if all_ws tail then inl (mkNullableText "" false)
            else inr TrailingInput
        | None => inr WrongShape
        end
  end.

End Json.

(** * Theorems *)

(** ** The interning cache *)

Lemma lookupAndCacheString_hit c src s :
  cache c !! string_of_bytes src = Some s →
  lookupAndCacheString c src = (mkEnumCodec (Some (cache c)), s).
Proof. intros Hs. unfold lookupAndCacheString. fold (cache c). by rewrite Hs. Qed.

Lemma lookupAndCacheString_miss c src :
  cache c !! string_of_bytes src = None →
  lookupAndCacheString c src
  = (mkEnumCodec (Some (<["" := zero_string]> (cache c))), zero_string).
Proof. intros Hs. unfold lookupAndCacheString. fold (cache c). by rewrite Hs. Qed.

Lemma zero_EnumCodec_wf : cache_wf zero_EnumCodec.
Proof. intros k v. unfold cache; simpl. by rewrite lookup_empty. Qed.

Lemma lookupAndCacheString_wf c src :
  cache_wf c → cache_wf (lookupAndCacheString c src).1.
Proof.
  intros Hwf k v.
  destruct (cache c !! string_of_bytes src) as [s|] eqn:Hs.
  - rewrite (lookupAndCacheString_hit _ _ _ Hs). apply Hwf.
  - rewrite (lookupAndCacheString_miss _ _ Hs). unfold cache at 1; simpl.
    rewrite lookup_insert. case_decide as Hk.
    + intros [= <-]. by subst k.
    + apply Hwf.
Qed.

Lemma reachable_wf c : reachable c → cache_wf c.
Proof.
  induction 1 as [|c src _ IH];
    [apply zero_EnumCodec_wf | by apply lookupAndCacheString_wf].
Qed.

(** Reading the same content again gives the instance the first call gave. *)
Lemma lookupAndCacheString_again c src :
  (lookupAndCacheString (lookupAndCacheString c src).1 src).2
  = (lookupAndCacheString c src).2.
Proof.
  destruct (cache c !! string_of_bytes src) as [s|] eqn:Hs.
  - rewrite (lookupAndCacheString_hit _ _ _ Hs); simpl.
    by rewrite (lookupAndCacheString_hit (mkEnumCodec (Some (cache c))) src s).
  - rewrite (lookupAndCacheString_miss _ _ Hs); simpl.
    set (c1 := mkEnumCodec _).
    destruct (cache c1 !! string_of_bytes src) as [s|] eqn:Hs1.
    + rewrite (lookupAndCacheString_hit _ _ _ Hs1); simpl.
      revert Hs1. unfold c1, cache at 1; simpl.
      rewrite lookup_insert. case_decide; [congruence|]. rewrite Hs. congruence.
    + by rewrite (lookupAndCacheString_miss _ _ Hs1).
Qed.

(** Starting from the zero codec the cache never holds more than the entry
    for the empty string, and every call answers with the zero string. *)
Lemma reachable_cache c :
  reachable c → cache c = ∅ ∨ cache c = {["" := zero_string]}.
Proof.
  induction 1 as [|c src _ IH]; [by left|].
  destruct (cache c !! string_of_bytes src) as [s|] eqn:Hs.
  - rewrite (lookupAndCacheString_hit _ _ _ Hs). by unfold cache at 1 3.
  - rewrite (lookupAndCacheString_miss _ _ Hs). right.
    unfold cache at 1; simpl. destruct IH as [-> | ->]; [done|].
    by rewrite insert_singleton_eq.
Qed.

Lemma reachable_lookup_zero c src :
  reachable c → (lookupAndCacheString c src).2 = zero_string.
Proof.
  intros Hr. destruct (cache c !! string_of_bytes src) as [s|] eqn:Hs.
  - rewrite (lookupAndCacheString_hit _ _ _ Hs); simpl.
    destruct (reachable_cache _ Hr) as [He | He]; rewrite He in Hs.
    + by rewrite lookup_empty in Hs.
    + apply lookup_singleton_Some in Hs. by destruct Hs.
  - by rewrite (lookupAndCacheString_miss _ _ Hs).
Qed.

(** ** Decoding and scanning *)

Section CodecFacts.

Context {ConnInfo : Type}.
Implicit Types (c codec : EnumCodec) (ci : option ConnInfo).
Implicit Types (oid format : Z) (src : bytes) (dst : any).

Lemma DecodeValue_present c ci oid format src :
  src ≠ None →
  DecodeValue c ci oid format src
  = ((lookupAndCacheString c src).1,
     (AnyString (lookupAndCacheString c src).2, None)).
Proof.
  intros Hsrc. destruct src as [b|]; [|done].
  unfold DecodeValue. by destruct (lookupAndCacheString c (Some b)).
Qed.

(** Decoding one content twice in a row gives one instance. *)
Lemma DecodeValue_again c ci oid format src :
  (DecodeValue (DecodeValue c ci oid format src).1 ci oid format src).2
  = (DecodeValue c ci oid format src).2.
Proof.
  destruct src as [b|]; [|done].
  rewrite !DecodeValue_present by done; simpl.
  by rewrite lookupAndCacheString_again.
Qed.

(** On a codec a program can have, any present source decodes to the zero
    string. *)
Lemma DecodeValue_reachable c ci oid format src :
  reachable c → src ≠ None →
  (DecodeValue c ci oid format src).2 = (AnyString zero_string, None).
Proof.
  intros Hr Hsrc. rewrite DecodeValue_present by done; simpl.
  by rewrite reachable_lookup_zero.
Qed.

Lemma Scan_string_null codec ci oid format dst :
  scanPlanTextAnyToEnumString_Scan codec ci oid format None dst
  = (codec, dst, Returns (cannot_scan_null dst)).
Proof. reflexivity. Qed.

(** C4, as amended: scanning a NULL source into a plain-string destination
    leaves codec and destination alone and fails with the error "cannot scan
    null into *string", which names the destination's type; scanning a NULL
    source into a [TextScanner] destination calls the destination's
    [ScanText] once, with [Text{}] ([Valid] false, empty [String]), leaves
    the cache alone, and returns what [ScanText] returned: the receiver's new
    state and its error, nil or not. *)
Theorem Scan_null_source codec ci oid format :
  (∀ p, scanPlanTextAnyToEnumString_Scan codec ci oid format None
          (AnyStringPtr p)
        = (codec, AnyStringPtr p,
           Returns (Some "cannot scan null into *string")))
  ∧ (∀ T name (self : T) valuer (scanner : TextScanner T),
       scanPlanTextAnyToEnumTextScanner_Scan codec ci oid format None
          (AnyUser (mkUser T name self valuer (Some scanner)))
       = (codec,
          AnyUser (mkUser T name (scanner self zero_Text).1 valuer
                     (Some scanner)),
          Returns (scanner self zero_Text).2))
  ∧ Text_Valid zero_Text = false ∧ sval (Text_String zero_Text) = "".
Proof.
  split; [|split; [|done]].
  - intros p. by rewrite Scan_string_null.
  - intros T name self valuer scanner. simpl.
    by destruct (scanner self zero_Text).
Qed.

(** C5: for every format, [DecodeValue] of a nil source returns the nil
    value and a nil error, and the codec it returns is the codec it was
    given, cache included. *)
Theorem DecodeValue_null c ci oid format :
  DecodeValue c ci oid format None = (c, (AnyNil, None)).
Proof. reflexivity. Qed.

(** C6: [PlanEncode] and [PlanScan] return no plan when the format is neither
    Text (0) nor Binary (1), and when the value, respectively the
    destination, is none of the supported shapes.  Both are total functions
    into an optional plan: there is no error to raise. *)
Theorem Plan_none ci oid format c value target actualTarget :
  unsupported_format format ∨ unsupported_value value →
  unsupported_format format ∨ unsupported_target target →
  PlanEncode ci oid format value = None ∧
  PlanScan c ci oid format target actualTarget = None.
Proof.
  unfold unsupported_format, TextFormatCode, BinaryFormatCode.
  intros Hv Ht. split; unfold PlanEncode, PlanScan,
    TextFormatCode, BinaryFormatCode.
  - destruct Hv as [[H0 H1] | (Hs & Hb & Hr & Hu)].
    + apply Z.eqb_neq in H0, H1. by rewrite H0, H1.
    + destruct ((format =? 0) || (format =? 1)); [|done].
      destruct value as [|s|b|r|p|p|p|u]; try done.
      * by destruct (Hs s).
      * by destruct (Hb b).
      * by destruct (Hr r).
      * by rewrite (Hu u eq_refl).
  - destruct Ht as [[H0 H1] | (Hs & Hb & Hr & Hu)].
    + apply Z.eqb_neq in H0, H1. by rewrite H0, H1.
    + destruct ((format =? 0) || (format =? 1)); [|done].
      destruct target as [|s|b|r|p|p|p|u]; try done.
      * by destruct (Hs p).
      * by destruct (Hb p).
      * by destruct (Hr p).
      * by rewrite (Hu u eq_refl).
Qed.

(** The other direction: a plan is refused for these reasons only. *)
Lemma PlanEncode_none_inv ci oid format value :
  PlanEncode ci oid format value = None →
  unsupported_format format ∨ unsupported_value value.
Proof.
  unfold PlanEncode, unsupported_format, TextFormatCode, BinaryFormatCode.
  destruct (format =? 0) eqn:H0; [|destruct (format =? 1) eqn:H1]; simpl.
  3: { intros _. left. by apply Z.eqb_neq in H0, H1. }
  all: intros Hnone; right; destruct value as [|s|b|r|p|p|p|u]; try done;
    repeat split; try done; intros u' [= <-]; by destruct (u_valuer u).
Qed.

Lemma PlanScan_none_inv c ci oid format target actualTarget :
  PlanScan c ci oid format target actualTarget = None →
  unsupported_format format ∨ unsupported_target target.
Proof.
  unfold PlanScan, unsupported_format, TextFormatCode, BinaryFormatCode.
  destruct (format =? 0) eqn:H0; [|destruct (format =? 1) eqn:H1]; simpl.
  3: { intros _. left. by apply Z.eqb_neq in H0, H1. }
  all: intros Hnone; right; destruct target as [|s|b|r|p|p|p|u]; try done;
    repeat split; try done; intros u' [= <-]; by destruct (u_scanner u).
Qed.

(** A plan is only ever handed out for a format [FormatSupported] accepts. *)
Lemma PlanEncode_some_format ci oid format value plan :
  PlanEncode ci oid format value = Some plan → FormatSupported format = true.
Proof.
  unfold PlanEncode, FormatSupported.
  by destruct ((format =? TextFormatCode) || (format =? BinaryFormatCode)).
Qed.

(** C7: on a cache whose entries are filed under their own content,
    [DecodeValue] of a present buffer of length zero returns a string value
    with empty content, [DecodeValue] of a nil buffer returns the nil value,
    whatever the codec and the format, and the two values differ. *)
Theorem DecodeValue_empty_is_not_null c ci oid format :
  cache_wf c →
  (∃ c' s, DecodeValue c ci oid format (Some []) = (c', (AnyString s, None))
           ∧ sval s = "")
  ∧ DecodeValue c ci oid format None = (c, (AnyNil, None))
  ∧ (∀ c0 ci0 oid0 format0,
       (DecodeValue c ci oid format (Some [])).2.1
       ≠ (DecodeValue c0 ci0 oid0 format0 None).2.1).
Proof.
  intros Hwf. rewrite DecodeValue_present by done. repeat split; [|done].
  eexists _, _. split; [done|].
  destruct (cache c !! string_of_bytes (Some [])) as [s|] eqn:Hs.
  - rewrite (lookupAndCacheString_hit _ _ _ Hs); simpl. by apply Hwf in Hs.
  - by rewrite (lookupAndCacheString_miss _ _ Hs).
Qed.

(** C9: given a nil source, [scanPlanTextAnyToEnumString.Scan] returns an
    error, and both the destination (the string behind the pointer) and the
    codec come back as they went in. *)
Theorem Scan_string_null_writes_nothing codec ci oid format dst :
  ∃ msg, scanPlanTextAnyToEnumString_Scan codec ci oid format None dst
         = (codec, dst, Returns (Some msg)).
Proof. eexists. apply Scan_string_null. Qed.

(** C10: on every input [DecodeDatabaseSQLValue] returns the value, the
    error and the codec state [DecodeValue] returns. *)
Theorem DecodeDatabaseSQLValue_is_DecodeValue c ci oid format src :
  DecodeDatabaseSQLValue c ci oid format src = DecodeValue c ci oid format src.
Proof. reflexivity. Qed.

End CodecFacts.

(** ** The codec at concrete inputs *)

Lemma Plan_none_witness :
  (unsupported_format TextFormatCode ∨ unsupported_value AnyNil) ∧
  (unsupported_format TextFormatCode ∨ unsupported_target (AnyString zero_string)) ∧
  PlanEncode (None : option unit) 25 TextFormatCode AnyNil = None ∧
  PlanScan zero_EnumCodec (None : option unit) 25 TextFormatCode
    (AnyString zero_string) true = None.
Proof.
  assert (Hv : unsupported_format TextFormatCode ∨ unsupported_value AnyNil).
  { right. repeat split; intros; discriminate. }
  assert (Ht : unsupported_format TextFormatCode
               ∨ unsupported_target (AnyString zero_string)).
  { right. repeat split; intros; discriminate. }
  split; [exact Hv|]. split; [exact Ht|].
  exact (Plan_none None 25 TextFormatCode zero_EnumCodec AnyNil
           (AnyString zero_string) true Hv Ht).
Defined.

Lemma DecodeValue_empty_is_not_null_witness :
  cache_wf zero_EnumCodec ∧
  ((∃ c' s, DecodeValue zero_EnumCodec (None : option unit) 25
              TextFormatCode (Some []) = (c', (AnyString s, None))
            ∧ sval s = "")
   ∧ DecodeValue zero_EnumCodec (None : option unit) 25 TextFormatCode None
     = (zero_EnumCodec, (AnyNil, None))
   ∧ (∀ c0 (ci0 : option unit) oid0 format0,
        (DecodeValue zero_EnumCodec (None : option unit) 25 TextFormatCode
           (Some [])).2.1
        ≠ (DecodeValue c0 ci0 oid0 format0 None).2.1)).
Proof.
  assert (Hwf : cache_wf zero_EnumCodec).
  { intros k v. unfold cache; simpl. rewrite lookup_empty. discriminate. }
  split; [exact Hwf|].
  exact (DecodeValue_empty_is_not_null zero_EnumCodec None 25 TextFormatCode
           Hwf).
Defined.

(** C4 as stated fails at a [TextScanner] that refuses NULL: [PlanScan]
    hands out the enum plan for it, and the plan's [Scan] of a nil source
    returns that destination's error, not nil. *)
Lemma Scan_null_into_refusing_scanner :
  PlanScan zero_EnumCodec (None : option unit) 25 TextFormatCode
    (AnyUser strictColor) true = Some scanPlanTextAnyToEnumTextScanner
  ∧ (scanPlanTextAnyToEnumTextScanner_Scan zero_EnumCodec
       (None : option unit) 25 TextFormatCode None (AnyUser strictColor)).2
    = Returns (Some "cannot scan NULL into *Color")
  ∧ (scanPlanTextAnyToEnumTextScanner_Scan zero_EnumCodec
       (None : option unit) 25 TextFormatCode None (AnyUser strictColor)).2
    ≠ Returns None.
Proof. split; [reflexivity|]. split; [reflexivity|discriminate]. Qed.

(** A destination that keeps what it is handed ends up holding [Text{}],
    and the scan succeeds. *)
Example Scan_null_into_keeping_scanner t :
  scanPlanTextAnyToEnumTextScanner_Scan zero_EnumCodec (None : option unit)
    25 TextFormatCode None (AnyUser (keepText t))
  = (zero_EnumCodec, AnyUser (keepText zero_Text), Returns None).
Proof. reflexivity. Qed.

(** C1, where the code departs from it: on a fresh codec, whatever the format,
    [DecodeValue] of the one-byte buffer "a" returns, with a nil error, the
    zero string, whose content is empty and not "a"; the entry it adds to
    the cache is filed under the empty string, and "a" stays absent. *)
Theorem DecodeValue_drops_content :
  ∀ format,
  ∃ c', DecodeValue zero_EnumCodec (None : option unit) 25 format
          (Some [x61]) = (c', (AnyString zero_string, None))
        ∧ sval zero_string ≠ string_of_bytes (Some [x61])
        ∧ cache c' !! "" = Some zero_string
        ∧ cache c' !! string_of_bytes (Some [x61]) = None.
Proof.
  intros format. eexists. split; [reflexivity|].
  split; [discriminate|]. split; reflexivity.
Qed.

(** C2, where the code departs from it: on one codec, decoding "a" and then
    "b" returns the zero string both times, one and the same instance for
    two different contents. *)
Theorem DecodeValue_two_contents_one_instance :
  let r1 := DecodeValue zero_EnumCodec (None : option unit) 25
              TextFormatCode (Some [x61]) in
  let r2 := DecodeValue r1.1 (None : option unit) 25 TextFormatCode
              (Some [x62]) in
  r1.2 = (AnyString zero_string, None) ∧ r2.2 = (AnyString zero_string, None)
  ∧ r1.2.1 = r2.2.1.
Proof. repeat split. Qed.

(** C3, where the code departs from it: the string "a" gets the string plan
    from [PlanEncode] and encodes to the one byte "a"; a [*string]
    destination gets the enum plan from [PlanScan], and scanning that byte
    on a fresh codec succeeds and stores the zero string, not "a".
    Whatever buffer is scanned there, the destination ends up holding the
    zero string, or what it held before when the source is nil. *)
Theorem roundtrip_drops_content :
  let s := GoString 1 "a" in
  let old := GoString 2 "old" in
  PlanEncode (None : option unit) 25 TextFormatCode (AnyString s)
  = Some encodePlanTextCodecString
  ∧ encodePlanTextCodecString_Encode (AnyString s)
    = Returns (Some [x61], None)
  ∧ PlanScan zero_EnumCodec (None : option unit) 25 TextFormatCode
      (AnyStringPtr (Some old)) true = Some scanPlanTextAnyToEnumString
  ∧ (∃ codec', scanPlanTextAnyToEnumString_Scan zero_EnumCodec
        (None : option unit) 25 TextFormatCode (Some [x61])
        (AnyStringPtr (Some old))
      = (codec', AnyStringPtr (Some zero_string), Returns None))
  ∧ sval zero_string ≠ sval s
  ∧ (∀ src, (scanPlanTextAnyToEnumString_Scan zero_EnumCodec
               (None : option unit) 25 TextFormatCode src
               (AnyStringPtr (Some old))).1.2
            = match src with
              | None => AnyStringPtr (Some old)
              | Some _ => AnyStringPtr (Some zero_string)
              end).
Proof.
  repeat split; try reflexivity; [|discriminate|by intros [b|]].
  eexists. reflexivity.
Qed.

(** ** JSON *)

Module JsonFacts.
Import Json.

Lemma append_assoc (a b c : string) : (a +:+ b) +:+ c = a +:+ (b +:+ c).
Proof.
  induction a as [|x a IH]; [done|].
  change (String x ((a +:+ b) +:+ c) = String x (a +:+ (b +:+ c))).
  by rewrite IH.
Qed.

(** One escaped character reads back as one piece that decodes to it. *)
Lemma string_body_escape_char (a : ascii) :
  ∃ p, (∀ tail, string_body (escape_char a +:+ tail)
                = push p (string_body tail))
       ∧ (∀ ps, decode_pieces (p :: ps) = String a (decode_pieces ps)).
Proof.
  destruct a as [[] [] [] [] [] [] [] []];
    first [ by eexists (Raw _); split; intros; reflexivity
          | by eexists (Unit16 _); split; intros; reflexivity ].
Qed.

Lemma string_body_escape (s tail : string) :
  ∃ ps, string_body (escape s +:+ String dquote tail) = Some (ps, tail)
        ∧ decode_pieces ps = s.
Proof.
  induction s as [|a s (ps & Hps & Hdec)].
  - by exists [].
  - destruct (string_body_escape_char a) as (p & Hp & Hd).
    exists (p :: ps).
    change (escape (String a s)) with (escape_char a +:+ escape s).
    by rewrite append_assoc, Hp, Hps, Hd, Hdec.
Qed.

Lemma from_json_literal (s : string) :
  from_json (String dquote (escape s +:+ String dquote ""))
  = inl (mkNullableText s true).
Proof.
  unfold from_json. simpl skip_ws. cbv iota beta.
  change (Ascii.eqb dquote dquote) with true. cbv iota.
  by destruct (string_body_escape s "") as (ps & -> & ->).
Qed.

(** C8: [to_json] of an absent value is the literal null whatever the
    content, [to_json] of present "a" is "a" in quotes; [from_json] of null
    is the absent value with empty content; [from_json] of the string
    literal "a" is present "a", and, for every content, [from_json] of its
    quoted, escaped literal is the present value with that content. *)
Theorem json_interop :
  (∀ s, to_json (mkNullableText s false) = "null")
  ∧ to_json (mkNullableText "a" true) = String dquote (String "a" (String dquote ""))
  ∧ from_json "null" = inl (mkNullableText "" false)
  ∧ from_json (String dquote (String "a" (String dquote "")))
    = inl (mkNullableText "a" true)
  ∧ (∀ s, from_json (String dquote (escape s +:+ String dquote ""))
          = inl (mkNullableText s true))
  ∧ (∀ s, from_json (to_json (mkNullableText s true))
          = inl (mkNullableText s true)).
Proof. repeat split; try reflexivity; exact from_json_literal. Qed.

(** Through JSON and back: a present value comes back as it was, an absent
    one as the zero value. *)
Lemma from_json_to_json (t : NullableText) :
  from_json (to_json t)
  = inl (if present t then t else mkNullableText "" false).
Proof.
  destruct t as [s [|]]; [apply from_json_literal|reflexivity].
Qed.

End JsonFacts.

(** * Further properties of the codec *)

(** ** One call on the cache *)


Lemma lookupAndCacheString_dom c src :
  dom (cache c) ⊆ dom (cache (lookupAndCacheString c src).1)
  ∧ dom (cache (lookupAndCacheString c src).1) ⊆ {[""]} ∪ dom (cache c).
Proof.
  destruct (cache c !! string_of_bytes src) as [s|] eqn:Hs.
  - rewrite (lookupAndCacheString_hit _ _ _ Hs). unfold cache at 2 3; simpl.
    set_solver.
  - rewrite (lookupAndCacheString_miss _ _ Hs). unfold cache at 2 3; simpl.
    rewrite dom_insert_L. set_solver.
Qed.

(** A second call with the same source changes nothing and answers alike. *)
Lemma lookupAndCacheString_idem c src :
  lookupAndCacheString (lookupAndCacheString c src).1 src
  = lookupAndCacheString c src.
Proof.
  destruct (cache c !! string_of_bytes src) as [s|] eqn:Hs.
  - rewrite (lookupAndCacheString_hit _ _ _ Hs); simpl.
    by rewrite (lookupAndCacheString_hit (mkEnumCodec (Some (cache c))) src s).
  - rewrite (lookupAndCacheString_miss _ _ Hs); simpl.
    set (c1 := mkEnumCodec _).
    assert (Hc1 : cache c1 = <["" := zero_string]> (cache c)) by done.
    destruct (decide (string_of_bytes src = "")) as [He | Hne].
    + rewrite (lookupAndCacheString_hit c1 src zero_string).
      * by rewrite Hc1.
      * by rewrite Hc1, He, lookup_insert_eq.
    + rewrite (lookupAndCacheString_miss c1 src).
      * by rewrite Hc1, insert_insert_eq.
      * by rewrite Hc1, lookup_insert_ne.
Qed.

Section CodecMore.

Context {ConnInfo : Type}.
Implicit Types (c codec : EnumCodec) (ci : option ConnInfo).
Implicit Types (oid format : Z) (src : bytes) (dst target : any).

(** The codec a scan leaves is the one it got or the one the cache call
    left. *)
Lemma Scan_string_codec codec ci oid format src dst :
  (scanPlanTextAnyToEnumString_Scan codec ci oid format src dst).1.1 = codec
  ∨ (scanPlanTextAnyToEnumString_Scan codec ci oid format src dst).1.1
    = (lookupAndCacheString codec src).1.
Proof.
  destruct src as [b|]; [|by left].
  destruct dst as [| | | |p| | |]; try by left.
  right. simpl. destruct (lookupAndCacheString codec (Some b)). by destruct p.
Qed.

Lemma Scan_scanner_codec codec ci oid format src dst :
  (scanPlanTextAnyToEnumTextScanner_Scan codec ci oid format src dst).1.1
  = codec
  ∨ (scanPlanTextAnyToEnumTextScanner_Scan codec ci oid format src dst).1.1
    = (lookupAndCacheString codec src).1.
Proof.
  destruct dst as [| | | | | | |u]; try by left.
  simpl. destruct (u_scanner u) as [scanner|]; [|by left].
  destruct src as [b|].
  - right. destruct (lookupAndCacheString codec (Some b)) as [c' s]; simpl.
    by destruct (scanner (u_self u) (mkText s true)).
  - left. by destruct (scanner (u_self u) zero_Text).
Qed.


(** X1: [PlanEncode] refuses a plan exactly when [FormatSupported] rejects
    the format or the value is none of the four shapes, and [PlanScan]
    exactly when [FormatSupported] rejects the format or the destination is
    none of its four shapes: a supported shape in a supported format always
    gets a plan. *)
Theorem Plan_refused_iff c ci oid format value target actualTarget :
  (PlanEncode ci oid format value = None
   ↔ FormatSupported format = false ∨ unsupported_value value)
  ∧ (PlanScan c ci oid format target actualTarget = None
     ↔ FormatSupported format = false ∨ unsupported_target target).
Proof.
  unfold PlanEncode, PlanScan, FormatSupported.
  destruct ((format =? TextFormatCode) || (format =? BinaryFormatCode));
    split; split; try (by left); try done.
  - intros Hnone. right.
    destruct value as [|s|b|r|p|p|p|u]; try done;
      repeat split; try done; intros u' [= <-]; by destruct (u_valuer u).
  - intros [? | (Hs & Hb & Hr & Hu)]; [done|].
    destruct value as [|s|b|r|p|p|p|u]; try done.
    + by destruct (Hs s).
    + by destruct (Hb b).
    + by destruct (Hr r).
    + by rewrite (Hu u eq_refl).
  - intros Hnone. right.
    destruct target as [|s|b|r|p|p|p|u]; try done;
      repeat split; try done; intros u' [= <-]; by destruct (u_scanner u).
  - intros [? | (Hs & Hb & Hr & Hu)]; [done|].
    destruct target as [|s|b|r|p|p|p|u]; try done.
    + by destruct (Hs p).
    + by destruct (Hb p).
    + by destruct (Hr p).
    + by rewrite (Hu u eq_refl).
Qed.

(** X2: the plan depends on the shape alone: for any two supported formats,
    any connection info, any type id, any codec state and either value of
    [actualTarget], [PlanEncode] picks the same plan for a value and
    [PlanScan] the same plan for a destination. *)
Theorem Plan_same_for_supported_formats
    c1 c2 ci1 ci2 oid1 oid2 format1 format2 value target actual1 actual2 :
  FormatSupported format1 = true → FormatSupported format2 = true →
  PlanEncode ci1 oid1 format1 value = PlanEncode ci2 oid2 format2 value
  ∧ PlanScan c1 ci1 oid1 format1 target actual1
    = PlanScan c2 ci2 oid2 format2 target actual2.
Proof.
  unfold FormatSupported, PlanEncode, PlanScan. by intros -> ->.
Qed.

(** X3: a cache whose entries are filed under their own content stays so
    through [DecodeValue] and through the [Scan] of both enum plans, whatever
    the source and the destination. *)
Theorem cache_wf_kept codec ci oid format src dst :
  cache_wf codec →
  cache_wf (DecodeValue codec ci oid format src).1
  ∧ cache_wf (scanPlanTextAnyToEnumString_Scan codec ci oid format src dst).1.1
  ∧ cache_wf
      (scanPlanTextAnyToEnumTextScanner_Scan codec ci oid format src dst).1.1.
Proof.
  intros Hwf. pose proof (lookupAndCacheString_wf codec src Hwf) as Hwf'.
  repeat split.
  - destruct src as [b|]; [|done]. by rewrite DecodeValue_present.
  - by destruct (Scan_string_codec codec ci oid format src dst) as [-> | ->].
  - by destruct (Scan_scanner_codec codec ci oid format src dst) as [-> | ->].
Qed.

(** X4: [DecodeValue] is idempotent: a second call with the same source on
    the codec the first call left returns the same value (for a string, the
    same instance) and leaves that codec as it is. *)
Theorem DecodeValue_idempotent c ci oid format src :
  DecodeValue (DecodeValue c ci oid format src).1 ci oid format src
  = DecodeValue c ci oid format src.
Proof.
  destruct src as [b|]; [|done].
  rewrite !DecodeValue_present by done; simpl.
  by rewrite lookupAndCacheString_idem.
Qed.

(** X5: [DecodeValue] never returns an error, for any format code, and the
    value it returns is nil exactly when the source is nil. *)
Theorem DecodeValue_null_iff c ci oid format src :
  (DecodeValue c ci oid format src).2.2 = None
  ∧ ((DecodeValue c ci oid format src).2.1 = AnyNil ↔ src = None).
Proof.
  destruct src as [b|]; [|done].
  rewrite DecodeValue_present by done. by split.
Qed.

(** X6: over any run of [DecodeValue] calls the cache loses no key, and the
    only key it can gain is the empty string. *)
Theorem decode_all_dom c ci oid format srcs :
  dom (cache c) ⊆ dom (cache (decode_all c ci oid format srcs))
  ∧ dom (cache (decode_all c ci oid format srcs)) ⊆ {[""]} ∪ dom (cache c).
Proof.
  revert c. induction srcs as [|src srcs IH]; intros c.
  { split; [done|apply union_subseteq_r]. }
  simpl. destruct (IH (DecodeValue c ci oid format src).1) as [IH1 IH2].
  assert (dom (cache c) ⊆ dom (cache (DecodeValue c ci oid format src).1)
          ∧ dom (cache (DecodeValue c ci oid format src).1)
            ⊆ {[""]} ∪ dom (cache c)) as [H1 H2].
  { destruct src as [b|]; [|split; [done|apply union_subseteq_r]].
    rewrite DecodeValue_present by done. apply lookupAndCacheString_dom. }
  clear IH. split; [by etrans|]. etrans; [exact IH2|].
  apply union_least; [apply union_subseteq_l|done].
Qed.


(** X8: for a present source and a non-nil [*string] destination, the string
    plan's [Scan] succeeds, stores the very string [DecodeValue] returns for
    that source, and leaves the codec as [DecodeValue] leaves it. *)
Theorem Scan_string_stores_decoded codec ci oid format src old :
  src ≠ None →
  ∃ codec' s,
    DecodeValue codec ci oid format src = (codec', (AnyString s, None))
    ∧ scanPlanTextAnyToEnumString_Scan codec ci oid format src
        (AnyStringPtr (Some old))
      = (codec', AnyStringPtr (Some s), Returns None).
Proof.
  intros Hsrc. rewrite DecodeValue_present by done.
  destruct src as [b|]; [|done]. simpl.
  destruct (lookupAndCacheString codec (Some b)) as [c' s]. by eexists _, _.
Qed.

(** X9: for a present source, the [TextScanner] plan's [Scan] calls the
    destination's [ScanText] once, with [Valid] true and the very string
    [DecodeValue] returns for that source, returns the error [ScanText]
    returned, and leaves the codec as [DecodeValue] leaves it. *)
Theorem Scan_scanner_passes_decoded codec ci oid format src
    T name (self : T) valuer (scanner : TextScanner T) :
  src ≠ None →
  ∃ codec' s,
    DecodeValue codec ci oid format src = (codec', (AnyString s, None))
    ∧ scanPlanTextAnyToEnumTextScanner_Scan codec ci oid format src
        (AnyUser (mkUser T name self valuer (Some scanner)))
      = (codec',
         AnyUser (mkUser T name (scanner self (mkText s true)).1 valuer
                    (Some scanner)),
         Returns (scanner self (mkText s true)).2).
Proof.
  intros Hsrc. rewrite DecodeValue_present by done.
  destruct src as [b|]; [|done]. simpl.
  destruct (lookupAndCacheString codec (Some b)) as [c' s].
  eexists _, _. split; [done|]. simpl.
  by destruct (scanner self (mkText s true)).
Qed.


(** X11: on a destination that is neither a [*string] nor a [TextScanner],
    the string plan's [Scan] panics at its type assertion for a present
    source but returns the "cannot scan null" error for a nil one, and the
    [TextScanner] plan's [Scan] panics at its type assertion for every
    source, nil included; in all three cases codec and destination are left
    alone. *)
Theorem Scan_wrong_destination codec ci oid format b src dst :
  (∀ p, dst ≠ AnyStringPtr p) →
  (∀ u, dst = AnyUser u → u_scanner u = None) →
  scanPlanTextAnyToEnumString_Scan codec ci oid format (Some b) dst
  = (codec, dst, Panics TypeAssertion)
  ∧ scanPlanTextAnyToEnumString_Scan codec ci oid format None dst
    = (codec, dst, Returns (Some ("cannot scan null into " +:+ type_name dst)))
  ∧ scanPlanTextAnyToEnumTextScanner_Scan codec ci oid format src dst
    = (codec, dst, Panics TypeAssertion).
Proof.
  intros Hs Hu. repeat split.
  - destruct dst as [| | | |p| | |]; try done. by destruct (Hs p).
  - destruct dst as [| | | | | | |u]; try done. simpl.
    by rewrite (Hu u eq_refl).
Qed.

(** X14: through a nil [*string] the string plan's [Scan] panics on the
    store for a present source, after the cache call has run: the
    destination is left alone, the codec is left as [DecodeValue] leaves it
    for that source. *)
Theorem Scan_string_nil_pointer codec ci oid format src :
  src ≠ None →
  scanPlanTextAnyToEnumString_Scan codec ci oid format src (AnyStringPtr None)
  = ((DecodeValue codec ci oid format src).1, AnyStringPtr None,
     Panics NilDereference).
Proof.
  intros Hsrc. rewrite DecodeValue_present by done.
  destruct src as [b|]; [|done]. simpl.
  by destruct (lookupAndCacheString codec (Some b)).
Qed.

(** X12: the two paths share the cache: after the string plan's [Scan] has
    stored a string for a present source, [DecodeValue] of the same source
    returns that very instance and leaves the codec as it is. *)
Theorem Scan_then_DecodeValue codec ci oid format src old :
  src ≠ None →
  ∃ codec' s,
    scanPlanTextAnyToEnumString_Scan codec ci oid format src
      (AnyStringPtr (Some old))
    = (codec', AnyStringPtr (Some s), Returns None)
    ∧ DecodeValue codec' ci oid format src = (codec', (AnyString s, None)).
Proof.
  intros Hsrc. destruct src as [b|]; [|done].
  exists (lookupAndCacheString codec (Some b)).1,
         (lookupAndCacheString codec (Some b)).2.
  split.
  - simpl. by destruct (lookupAndCacheString codec (Some b)).
  - rewrite DecodeValue_present by done.
    by rewrite lookupAndCacheString_idem.
Qed.

(** X13: on a codec that started as the zero value and was only used
    through its methods, the cache holds at most one entry, and every
    present source, whatever its content, decodes without error to the zero
    string; the codec the call leaves is again such a codec. *)
Theorem reachable_decodes_empty c ci oid format src :
  reachable c → src ≠ None →
  (DecodeValue c ci oid format src).2 = (AnyString zero_string, None)
  ∧ (size (cache c) ≤ 1)%nat
  ∧ reachable (DecodeValue c ci oid format src).1.
Proof.
  intros Hr Hsrc. rewrite DecodeValue_present by done; simpl.
  split; [by rewrite reachable_lookup_zero|]. split.
  - destruct (reachable_cache _ Hr) as [-> | ->].
    + rewrite map_size_empty. lia.
    + rewrite map_size_singleton. lia.
  - by constructor.
Qed.

End CodecMore.

(** ** The further properties at concrete inputs *)

Lemma Plan_same_for_supported_formats_witness :
  FormatSupported TextFormatCode = true
  ∧ FormatSupported BinaryFormatCode = true
  ∧ PlanEncode (None : option unit) 25 TextFormatCode (AnyRune 82)
    = PlanEncode (None : option unit) 1042 BinaryFormatCode (AnyRune 82)
  ∧ PlanScan zero_EnumCodec (None : option unit) 25 TextFormatCode
      (AnyRunePtr None) true
    = PlanScan redCodec (None : option unit) 1042 BinaryFormatCode
        (AnyRunePtr None) false.
Proof.
  split; [reflexivity|]. split; [reflexivity|].
  exact (Plan_same_for_supported_formats zero_EnumCodec redCodec None None
           25 1042 TextFormatCode BinaryFormatCode (AnyRune 82)
           (AnyRunePtr None) true false eq_refl eq_refl).
Defined.

Lemma redCodec_wf : cache_wf redCodec.
Proof.
  intros k v. unfold cache; simpl. rewrite lookup_singleton_Some.
  by intros [<- <-].
Qed.

Lemma cache_wf_kept_witness :
  cache_wf redCodec
  ∧ cache_wf (DecodeValue redCodec (None : option unit) 25 TextFormatCode
                (Some [x61])).1
  ∧ cache_wf (scanPlanTextAnyToEnumString_Scan redCodec (None : option unit)
                25 TextFormatCode (Some [x61]) (AnyStringPtr None)).1.1
  ∧ cache_wf (scanPlanTextAnyToEnumTextScanner_Scan redCodec
                (None : option unit) 25 TextFormatCode (Some [x61])
                (AnyStringPtr None)).1.1.
Proof.
  split; [exact redCodec_wf|].
  exact (cache_wf_kept redCodec None 25 TextFormatCode (Some [x61])
           (AnyStringPtr None) redCodec_wf).
Defined.


Lemma Scan_string_stores_decoded_witness :
  Some [x72; x65; x64] ≠ (None : bytes)
  ∧ ∃ codec' s,
      DecodeValue redCodec (None : option unit) 25 TextFormatCode
        (Some [x72; x65; x64]) = (codec', (AnyString s, None))
      ∧ scanPlanTextAnyToEnumString_Scan redCodec (None : option unit) 25
          TextFormatCode (Some [x72; x65; x64])
          (AnyStringPtr (Some zero_string))
        = (codec', AnyStringPtr (Some s), Returns None).
Proof.
  assert (Hsrc : Some [x72; x65; x64] ≠ (None : bytes)) by discriminate.
  split; [exact Hsrc|].
  exact (Scan_string_stores_decoded redCodec None 25 TextFormatCode
           (Some [x72; x65; x64]) zero_string Hsrc).
Defined.

Lemma Scan_scanner_passes_decoded_witness :
  Some [x72; x65; x64] ≠ (None : bytes)
  ∧ ∃ codec' s,
      DecodeValue redCodec (None : option unit) 25 TextFormatCode
        (Some [x72; x65; x64]) = (codec', (AnyString s, None))
      ∧ scanPlanTextAnyToEnumTextScanner_Scan redCodec (None : option unit)
          25 TextFormatCode (Some [x72; x65; x64])
          (AnyUser (mkUser (option string) "*Color" None None
                      (Some Color_ScanText)))
        = (codec',
           AnyUser (mkUser (option string) "*Color"
                      (Color_ScanText None (mkText s true)).1 None
                      (Some Color_ScanText)),
           Returns (Color_ScanText None (mkText s true)).2).
Proof.
  assert (Hsrc : Some [x72; x65; x64] ≠ (None : bytes)) by discriminate.
  split; [exact Hsrc|].
  exact (Scan_scanner_passes_decoded redCodec None 25 TextFormatCode
           (Some [x72; x65; x64]) (option string) "*Color" None None
           Color_ScanText Hsrc).
Defined.


Lemma Scan_wrong_destination_witness :
  (∀ p, AnyBytesPtr None ≠ AnyStringPtr p)
  ∧ (∀ u, AnyBytesPtr None = AnyUser u → u_scanner u = None)
  ∧ scanPlanTextAnyToEnumString_Scan redCodec (None : option unit) 25
      TextFormatCode (Some [x61]) (AnyBytesPtr None)
    = (redCodec, AnyBytesPtr None, Panics TypeAssertion)
  ∧ scanPlanTextAnyToEnumString_Scan redCodec (None : option unit) 25
      TextFormatCode None (AnyBytesPtr None)
    = (redCodec, AnyBytesPtr None,
       Returns (Some ("cannot scan null into " +:+ type_name (AnyBytesPtr None))))
  ∧ scanPlanTextAnyToEnumTextScanner_Scan redCodec (None : option unit) 25
      TextFormatCode None (AnyBytesPtr None)
    = (redCodec, AnyBytesPtr None, Panics TypeAssertion).
Proof.
  assert (Hs : ∀ p, AnyBytesPtr None ≠ AnyStringPtr p) by discriminate.
  assert (Hu : ∀ u, AnyBytesPtr None = AnyUser u → u_scanner u = None)
    by discriminate.
  split; [exact Hs|]. split; [exact Hu|].
  exact (Scan_wrong_destination redCodec None 25 TextFormatCode [x61] None
           (AnyBytesPtr None) Hs Hu).
Defined.

Lemma Scan_then_DecodeValue_witness :
  Some [x61] ≠ (None : bytes)
  ∧ ∃ codec' s,
      scanPlanTextAnyToEnumString_Scan zero_EnumCodec (None : option unit)
        25 TextFormatCode (Some [x61]) (AnyStringPtr (Some (GoString 2 "old")))
      = (codec', AnyStringPtr (Some s), Returns None)
      ∧ DecodeValue codec' (None : option unit) 25 TextFormatCode (Some [x61])
        = (codec', (AnyString s, None)).
Proof.
  assert (Hsrc : Some [x61] ≠ (None : bytes)) by discriminate.
  split; [exact Hsrc|].
  exact (Scan_then_DecodeValue zero_EnumCodec None 25 TextFormatCode
           (Some [x61]) (GoString 2 "old") Hsrc).
Defined.

Lemma reachable_decodes_empty_witness :
  reachable zero_EnumCodec
  ∧ Some [x72; x65; x64] ≠ (None : bytes)
  ∧ (DecodeValue zero_EnumCodec (None : option unit) 25 TextFormatCode
       (Some [x72; x65; x64])).2 = (AnyString zero_string, None)
  ∧ (size (cache zero_EnumCodec) ≤ 1)%nat
  ∧ reachable (DecodeValue zero_EnumCodec (None : option unit) 25
                 TextFormatCode (Some [x72; x65; x64])).1.
Proof.
  assert (Hsrc : Some [x72; x65; x64] ≠ (None : bytes)) by discriminate.
  split; [exact reachable_zero|]. split; [exact Hsrc|].
  exact (reachable_decodes_empty zero_EnumCodec None 25 TextFormatCode
           (Some [x72; x65; x64]) reachable_zero Hsrc).
Defined.

Lemma Scan_string_nil_pointer_witness :
  Some [x61] ≠ (None : bytes)
  ∧ scanPlanTextAnyToEnumString_Scan zero_EnumCodec (None : option unit) 25
      TextFormatCode (Some [x61]) (AnyStringPtr None)
    = ((DecodeValue zero_EnumCodec (None : option unit) 25 TextFormatCode
          (Some [x61])).1,
       AnyStringPtr None, Panics NilDereference).
Proof.
  assert (Hsrc : Some [x61] ≠ (None : bytes)) by discriminate.
  split; [exact Hsrc|].
  exact (Scan_string_nil_pointer zero_EnumCodec None 25 TextFormatCode
           (Some [x61]) Hsrc).
Defined.
